(** * Shallow embedding of the stress predictor pipeline of [app.py]

    The [/predictor] route of [src/app.py] collects twenty integer answers
    from the submitted form, hands them to a pre-trained classifier, takes
    the arg-max label, sorts every feature into an "attention" or a
    "maintain" bucket, and packs both buckets into one text block.  The
    other routes are modelled too: login and signup over a users table,
    the review form of [/home], [/logout], the [/advisor] chat with the
    retrying [get_bot_response] of [src/chatbot_gemini.py], and the list
    of flowables the PDF report of [/download_pdf] is built from.

    Modelling choices:
    - Python [str] values are [string] (bytes; the only non-ASCII text of
      the code, an em dash, is written in UTF-8 as in the source file).
    - Python [int] is [Z]; a Python [dict] built by assignment is an
      association list kept in insertion order ([dict_set], [dict_get]).
    - The submitted form (werkzeug [MultiDict]) is an association list
      whose [get] returns the first value stored under the key.
    - Classifier probabilities are rationals [Q] for the pipeline; the
      scaling by 100 is written once over any number type so that it can
      also be run on the primitive binary64 floats of the kernel.
    - A Python exception is the [inl] branch of a sum type. *)

From stdpp Require Import base list strings.
From Stdlib Require Import ZArith QArith Floats Ascii String.

Open Scope Z_scope.
Open Scope string_scope.

(* ================================================================= *)
(** ** Python dictionaries and the submitted form *)

Module PyDict.

(** [d[k] = v]: a present key keeps its position and gets the new value,
    a new key is appended at the end. *)
Fixpoint dict_set {V} (d : list (string * V)) (k : string) (v : V)
  : list (string * V) :=
  match d with
  | [] => [(k, v)]
  | (k', v') :: d' =>
      if String.eqb k k' then (k, v) :: d' else (k', v') :: dict_set d' k v
  end.

(** [d.get(k)] *)
Fixpoint dict_get {V} (d : list (string * V)) (k : string) : option V :=
  match d with
  | [] => None
  | (k', v') :: d' => if String.eqb k k' then Some v' else dict_get d' k
  end.

End PyDict.
Import PyDict.

(** The submitted form: [request.form.get(k)] returns the first value. *)
Definition Form := list (string * string).

Definition form_get (form : Form) (k : string) : option string :=
  dict_get form k.

(* ================================================================= *)
(** ** Python's [int()] on a string

    [int(s)] strips surrounding whitespace, accepts one optional sign and a
    non-empty run of decimal digits in which single underscores may
    separate digits.  Only ASCII characters are modelled; the interpreter's
    limit on the number of digits is not. *)

Module PyInt.

Definition is_py_space (c : ascii) : bool :=
  let n := nat_of_ascii c in
  (Nat.eqb n 32 || (Nat.leb 9 n && Nat.leb n 13) || (Nat.leb 28 n && Nat.leb n 31))%bool.

Definition digit_val (c : ascii) : option Z :=
  let n := nat_of_ascii c in
  if (Nat.leb 48 n && Nat.leb n 57)%bool then Some (Z.of_nat (n - 48)) else None.

Fixpoint drop_spaces (cs : list ascii) : list ascii :=
  match cs with
  | c :: cs' => if is_py_space c then drop_spaces cs' else cs
  | [] => []
  end.

Definition strip (cs : list ascii) : list ascii :=
  rev (drop_spaces (rev (drop_spaces cs))).

(** Digits after the first one; [prev_us] records a pending underscore. *)
Fixpoint parse_digits (cs : list ascii) (acc : Z) (prev_us : bool) : option Z :=
  match cs with
  | [] => if prev_us then None else Some acc
  | c :: cs' =>
      if Ascii.eqb c "_"%char then
        if prev_us then None else parse_digits cs' acc true
      else
        match digit_val c with
        | Some d => parse_digits cs' (acc * 10 + d) false
        | None => None
        end
  end.

Definition parse_unsigned (cs : list ascii) : option Z :=
  match cs with
  | c :: cs' =>
      match digit_val c with
      | Some d => parse_digits cs' d false
      | None => None
      end
  | [] => None
  end.

Definition py_int (s : string) : option Z :=
  match strip (list_ascii_of_string s) with
  | c :: cs =>
      if Ascii.eqb c "-"%char then option_map Z.opp (parse_unsigned cs)
      else if Ascii.eqb c "+"%char then parse_unsigned cs
      else parse_unsigned (c :: cs)
  | [] => None
  end.

End PyInt.
Import PyInt.

(* ================================================================= *)
(** ** Module-level constants *)

Definition MODEL_FEATURE_ORDER : list string :=
  [ "anxiety_level"; "self_esteem"; "mental_health_history"; "depression";
    "headache"; "blood_pressure"; "sleep_quality"; "breathing_problem";
    "noise_level"; "living_conditions"; "safety"; "basic_needs";
    "academic_performance"; "study_load"; "teacher_student_relationship";
    "future_career_concerns"; "social_support"; "peer_pressure";
    "extracurricular_activities"; "bullying" ].

Definition RECOMMENDATIONS_DB : list (string * string) :=
  [ ("anxiety_level", "Try practicing the 4-7-8 breathing technique. Also, consider mindfulness apps for guided meditation.");
    ("self_esteem", "Practice positive self-talk. Each day, write down three things you did well, no matter how small.");
    ("depression", "Engage in light physical activity, like a 15-minute walk outside. Sunlight and movement can have a significant positive impact on mood.");
    ("sleep_quality", "Establish a consistent sleep schedule. Avoid screens for at least an hour before bed to improve your natural sleep cycle.");
    ("academic_performance", "Break down large assignments into smaller, manageable tasks. Use a planner to schedule your work.");
    ("social_support", "Schedule regular calls or meetups with friends and family. A strong social connection is a powerful buffer against stress.") ].

Definition GENERIC_HIGH_TIP : string :=
  "Consider consulting a counselor or adopting stress-reduction strategies relevant to this area.".

Definition GOOD_PREFIX : string := "Good — keep doing this. ".

Definition GENERIC_LOW_TIP : string :=
  "This parameter is in a low-risk range. Maintain your current habits that support this.".

Definition high_threshold : Z := 7.
Definition low_threshold : Z := 3.

(* ================================================================= *)
(** ** Feature collector (app.py lines 200-210) *)

(** [try: val = int(request.form.get(feature, 5)) except Exception: val = 5];
    when the key is absent the default is the int [5] and [int(5) = 5]. *)
Definition field_value (form : Form) (feature : string) : Z :=
  match form_get form feature with
  | None => 5
  | Some s => match py_int s with Some v => v | None => 5 end
  end.

Fixpoint collect_loop (form : Form) (features : list string)
    (input_data : list Z) (feature_values : list (string * Z))
  : list Z * list (string * Z) :=
  match features with
  | [] => (input_data, feature_values)
  | feature :: rest =>
      let val := field_value form feature in
      collect_loop form rest (app input_data [val]) (dict_set feature_values feature val)
  end.

(** Returns [(input_data, feature_values)]. *)
Definition collect (form : Form) : list Z * list (string * Z) :=
  collect_loop form MODEL_FEATURE_ORDER [] [].

(* ================================================================= *)
(** ** Recommendation engine (app.py lines 217-234) *)

Record Item := mkItem { factor : string; value : Z; tip : string }.

Definition attention_tip (feature : string) : string :=
  match dict_get RECOMMENDATIONS_DB feature with
  | Some t => t
  | None => GENERIC_HIGH_TIP
  end.

Definition maintain_tip (feature : string) : string :=
  match dict_get RECOMMENDATIONS_DB feature with
  | Some t => String.append GOOD_PREFIX t
  | None => GENERIC_LOW_TIP
  end.

(** [for feature, value in feature_values.items(): ...] *)
Fixpoint bucket_loop (items : list (string * Z)) (affected maintain : list Item)
  : list Item * list Item :=
  match items with
  | [] => (affected, maintain)
  | (feature, v) :: rest =>
      if Z.geb v high_threshold then
        bucket_loop rest (app affected [mkItem feature v (attention_tip feature)]) maintain
      else if Z.leb v low_threshold then
        bucket_loop rest affected (app maintain [mkItem feature v (maintain_tip feature)])
      else bucket_loop rest affected maintain
  end.

Definition buckets (feature_values : list (string * Z)) : list Item * list Item :=
  bucket_loop feature_values [] [].

(* ================================================================= *)
(** ** Report packer (app.py lines 249-268) *)

Module PyStr.

Definition is_lower (c : ascii) : bool :=
  let n := nat_of_ascii c in (Nat.leb 97 n && Nat.leb n 122)%bool.

Definition is_upper (c : ascii) : bool :=
  let n := nat_of_ascii c in (Nat.leb 65 n && Nat.leb n 90)%bool.

Definition to_upper (c : ascii) : ascii :=
  if is_lower c then ascii_of_nat (nat_of_ascii c - 32) else c.

Definition to_lower (c : ascii) : ascii :=
  if is_upper c then ascii_of_nat (nat_of_ascii c + 32) else c.

(** [str.title()]: a cased character is upper-cased when the previous
    character is not cased and lower-cased otherwise. *)
Fixpoint title_aux (prev_cased : bool) (s : string) : string :=
  match s with
  | EmptyString => EmptyString
  | String c s' =>
      if (is_lower c || is_upper c)%bool then
        String (if prev_cased then to_lower c else to_upper c) (title_aux true s')
      else String c (title_aux false s')
  end.

Definition title (s : string) : string := title_aux false s.

(** [s.replace(a, b)] for one-character [a] and [b]. *)
Fixpoint replace_char (a b : ascii) (s : string) : string :=
  match s with
  | EmptyString => EmptyString
  | String c s' => String (if Ascii.eqb c a then b else c) (replace_char a b s')
  end.

Fixpoint dec_digits (fuel : nat) (n : Z) (acc : string) : string :=
  match fuel with
  | O => acc
  | S fuel' =>
      let acc' := String (ascii_of_nat (48 + Z.to_nat (n mod 10))) acc in
      if Z.eqb (n / 10) 0 then acc' else dec_digits fuel' (n / 10) acc'
  end.

(** [str(n)] for a Python int (also what an f-string prints). *)
Definition str_int (n : Z) : string :=
  match n with
  | Z0 => "0"
  | Zpos p => dec_digits (Pos.size_nat p) n ""
  | Zneg p => String "-"%char (dec_digits (Pos.size_nat p) (Zpos p) "")
  end.

End PyStr.
Import PyStr.

(** [a["factor"].replace("_", " ").title()] *)
Definition humanize (feature : string) : string :=
  title (replace_char "_"%char " "%char feature).

(** [f"{human} ({a['value']}): {a['tip']}"] *)
Definition item_line (a : Item) : string :=
  humanize (factor a) +:+ " (" +:+ str_int (value a) +:+ "): " +:+ tip a.

Definition FALLBACK_LINE : string :=
  "No specific high-risk parameters detected. Inputs look balanced.".

Fixpoint append_item_lines (rec_lines : list string) (items : list Item)
  : list string :=
  match items with
  | [] => rec_lines
  | a :: rest => append_item_lines (app rec_lines [item_line a]) rest
  end.

Definition pack (affected maintain : list Item) : string :=
  let rec_lines : list string := [] in
  let rec_lines :=
    match affected with
    | [] => rec_lines
    | _ :: _ => append_item_lines (app rec_lines ["Affected Parameters:"]) affected
    end in
  let rec_lines :=
    match maintain with
    | [] => rec_lines
    | _ :: _ =>
        let rec_lines := match rec_lines with
                         | [] => rec_lines
                         | _ :: _ => app rec_lines [""]
                         end in
        append_item_lines (app rec_lines ["Parameters to Maintain:"]) maintain
    end in
  let rec_lines := match rec_lines with [] => [FALLBACK_LINE] | _ :: _ => rec_lines end in
  String.concat (String "010"%char EmptyString) rec_lines.

(* ================================================================= *)
(** ** Exceptions, indexing and the arg-max *)

Inductive Exc := ValueError | IndexError | ClassifierError.

Definition ret {A} (x : A) : Exc + A := inr x.
Definition bindE {A B} (m : Exc + A) (k : A -> Exc + B) : Exc + B :=
  match m with inl e => inl e | inr x => k x end.

(** [l[i]] for a non-negative index. *)
Definition py_index {A} (l : list A) (i : nat) : Exc + A :=
  match l !! i with Some x => inr x | None => inl IndexError end.

Section ArgMax.
Context {A : Type} (ltb : A -> A -> bool).

(** [idx] is the index of the head of [l]; [best]/[bv] the first maximum
    seen so far.  Only a strictly larger entry replaces it. *)
Fixpoint argmax_from (l : list A) (idx best : nat) (bv : A) : nat :=
  match l with
  | [] => best
  | x :: l' =>
      if ltb bv x then argmax_from l' (S idx) idx x
      else argmax_from l' (S idx) best bv
  end.

(** [np.argmax] on a one-dimensional array. *)
Definition np_argmax (l : list A) : Exc + nat :=
  match l with
  | [] => inl ValueError
  | x :: l' => inr (argmax_from l' 1 0 x)
  end.

End ArgMax.

Definition MSG_NOT_LOADED : string :=
  "The prediction model is not loaded. Please contact the administrator.".
Definition MSG_FAILED : string :=
  "An error occurred during prediction. Please try again.".

(** The arithmetic the route applies to the classifier's numbers: [<] (in
    [np.argmax]) and [* 100].  numpy gives float64; the proofs use exact
    rationals.  NaN is not modelled: [np.argmax] would pick the first NaN. *)
Class PyNum (N : Type) := {
  num_ltb : N -> N -> bool;
  num_mul : N -> N -> N;
  num_hundred : N }.

(** [a < b] on rationals. *)
Definition Qltb (a b : Q) : bool := negb (Qle_bool b a).

#[export] Instance Q_PyNum : PyNum Q :=
  { num_ltb := Qltb; num_mul := Qmult; num_hundred := 100%Q }.

#[export] Instance float_PyNum : PyNum float :=
  { num_ltb := PrimFloat.ltb; num_mul := PrimFloat.mul; num_hundred := 100%float }.

(** [probabilities[0] * 100], [probabilities[1] * 100], [probabilities[2] * 100] *)
Definition percentages {N} `{PyNum N} (probabilities : list N) : Exc + (N * N * N) :=
  bindE (py_index probabilities 0) (fun p0 =>
  bindE (py_index probabilities 1) (fun p1 =>
  bindE (py_index probabilities 2) (fun p2 =>
  ret (num_mul p0 num_hundred, num_mul p1 num_hundred, num_mul p2 num_hundred)))).

Definition stress_labels : list string := ["Low"; "Medium"; "High"].

(* ================================================================= *)
(** ** The [/predictor] route (app.py lines 187-308) *)

(** The loaded estimator; [predict_proba] may raise. *)
Record Classifier (N : Type) := mkClassifier {
  predict_proba : list (list Z) -> Exc + list (list N) }.
Arguments mkClassifier {N} _.
Arguments predict_proba {N} _ _.

Record PredictionResult (N : Type) := mkResult {
  level : string;
  probabilities : N * N * N;
  recommendations : list Item;
  maintain_items : list Item;
  feature_values : list (string * Z);
  packed_recommendations : string }.
Arguments mkResult {N} _ _ _ _ _ _.
Arguments level {N} _.
Arguments probabilities {N} _.
Arguments recommendations {N} _.
Arguments maintain_items {N} _.
Arguments feature_values {N} _.
Arguments packed_recommendations {N} _.

Section Route.
Context {N : Type} `{PyNum N}.

(** The body of the [try] block.  The chart drawing (lines 271-289) sits in
    its own [try] and only writes an image file, so it is left out. *)
Definition score (clf : Classifier N) (form : Form) : Exc + PredictionResult N :=
  let '(input_data, fv) := collect form in
  bindE (predict_proba clf [input_data]) (fun rows =>
  bindE (py_index rows 0) (fun probs =>
  bindE (np_argmax num_ltb probs) (fun predicted_index =>
  bindE (py_index stress_labels predicted_index) (fun stress_level =>
  let '(affected, maintain) := buckets fv in
  bindE (percentages probs) (fun ps =>
  ret (mkResult stress_level ps affected maintain fv (pack affected maintain))))))).

Record Response := mkResponse {
  flashes : list (string * string);
  prediction : option (PredictionResult N);
  recommendations_packed : string }.

Inductive Outcome := RedirectLogin | Render (r : Response).

(** [model] is [None] when [joblib.load] failed at start-up. *)
Definition predictor (logged_in is_post : bool) (model : option (Classifier N))
    (form : Form) : Outcome :=
  if negb logged_in then RedirectLogin
  else if negb is_post then Render (mkResponse [] None "")
  else match model with
       | None => Render (mkResponse [(MSG_NOT_LOADED, "error")] None "")
       | Some clf =>
           match score clf form with
           | inl _ => Render (mkResponse [(MSG_FAILED, "error")] None "")
           | inr r => Render (mkResponse [] (Some r) (packed_recommendations r))
           end
       end.

End Route.

(* ================================================================= *)
(** ** String helpers of the other routes *)

Module PyText.

(** [str.lower()] on ASCII. *)
Fixpoint str_lower (s : string) : string :=
  match s with
  | EmptyString => EmptyString
  | String c s' => String (to_lower c) (str_lower s')
  end.

(** [s.startswith(p)] *)
Fixpoint starts_with (p s : string) : bool :=
  match p, s with
  | EmptyString, _ => true
  | String c p', String d s' => Ascii.eqb c d && starts_with p' s'
  | String _ _, EmptyString => false
  end.

(** [needle in hay] *)
Fixpoint contains (needle hay : string) : bool :=
  starts_with needle hay ||
  match hay with
  | EmptyString => false
  | String _ hay' => contains needle hay'
  end.

(** [s.strip()] on ASCII whitespace, reusing the stripping of [int()]. *)
Definition str_strip (s : string) : string :=
  string_of_list_ascii (strip (list_ascii_of_string s)).

(** [s[2:]] *)
Definition drop2 (s : string) : string := substring 2 (String.length s) s.

End PyText.
Import PyText.

(* ================================================================= *)
(** ** The chat wrapper ([chatbot_gemini.py], [get_bot_response]) *)

(** A chat turn [{'role': ..., 'parts': [...]}]. *)
Record Turn := mkTurn { role : string; parts : list string }.

Module Chatbot.

(** What one [start_chat(...).send_message(...)] call does: answer with
    [response.text] or raise an exception whose [str] is [msg]. *)
Inductive ApiOutcome := Reply (text : string) | Raised (msg : string).

(** The hosted model as seen by one call of [get_bot_response]: the
    outcome of its [n]-th attempt for the given history and prompt. *)
Definition Api := list Turn -> string -> nat -> ApiOutcome.

Definition MSG_API_KEY : string :=
  "There seems to be an issue with the API key. Please verify it is correct.".
Definition MSG_ISSUE : string :=
  "I'm sorry, I encountered an issue while trying to respond.".
Definition MSG_LIMITS : string :=
  "I'm sorry, I'm still hitting limits. Please try again later.".

(** [if "429" in error_msg or "quota" in error_msg.lower()] *)
Definition is_rate_limited (msg : string) : bool :=
  (contains "429" msg || contains "quota" (str_lower msg))%bool.

(** The reply together with the number of API attempts and the seconds
    spent in [time.sleep]. *)
Record BotRun := mkRun { reply : string; calls : nat; slept : Z }.

(** One pass of the [while] loop per unit of fuel; [retries] is the loop
    counter and also the index of the current attempt. *)
Fixpoint bot_loop (api : Api) (history : list Turn) (prompt : string)
    (fuel retries : nat) (slept_s : Z) : BotRun :=
  match fuel with
  | O => mkRun MSG_LIMITS retries slept_s
  | S fuel' =>
      match api history prompt retries with
      | Reply text => mkRun text (S retries) slept_s
      | Raised error_msg =>
          if is_rate_limited error_msg then
            bot_loop api history prompt fuel' (S retries) (slept_s + 12)
          else if contains "API key not valid" error_msg then
            mkRun MSG_API_KEY (S retries) slept_s
          else mkRun MSG_ISSUE (S retries) slept_s
      end
  end.

(** [get_bot_response(user_prompt, chat_history=None, max_retries=3)];
    [while retries < max_retries] runs [max(max_retries, 0)] times at most. *)
Definition get_bot_response (api : Api) (user_prompt : string)
    (chat_history : option (list Turn)) (max_retries : Z) : BotRun :=
  let history := match chat_history with Some h => h | None => [] end in
  bot_loop api history user_prompt (Z.to_nat max_retries) 0 0.

(** Whether an attempt is retried, and what a non-retried one returns. *)
Definition outcome_rate_limited (o : ApiOutcome) : bool :=
  match o with Raised m => is_rate_limited m | Reply _ => false end.

Definition final_reply (o : ApiOutcome) : string :=
  match o with
  | Reply text => text
  | Raised m => if contains "API key not valid" m then MSG_API_KEY else MSG_ISSUE
  end.

End Chatbot.

(* ================================================================= *)
(** ** The session and the other routes of [app.py] *)

(** The two keys of [flask_session] the routes read and write. *)
Record Session := mkSession {
  s_username : option string;
  s_chat : option (list Turn) }.

Definition is_logged_in (sess : Session) : bool :=
  match s_username sess with Some _ => true | None => false end.

Definition Flash := (string * string)%type.

(** [/logout] (lines 180-185): pops both keys. *)
Definition logout (sess : Session) : Session * list Flash :=
  (mkSession None None, [("You have been logged out.", "success")]).

Module Advisor.

(** What iterating the value returned by [get_bot_response] yields: a
    [str] yields its characters, a list its elements. *)
Inductive BotAnswer := AnswerText (s : string) | AnswerList (chunks : list string).

Fixpoint chars_of (s : string) : list string :=
  match s with
  | EmptyString => []
  | String c s' => String c EmptyString :: chars_of s'
  end.

Definition chunks (a : BotAnswer) : list string :=
  match a with AnswerText s => chars_of s | AnswerList l => l end.

(** [get_bot_response] as bound in [app.py]: called with the input and
    the session's history. *)
Definition Bot := string -> list Turn -> BotAnswer.

(** The stand-in defined when [chatbot_gemini] cannot be imported (lines 43-47). *)
Definition fallback_bot : Bot := fun _ _ => AnswerList ["(chatbot not configured)"].


Inductive AdvisorOutcome :=
  | AdvRedirectLogin
  | AdvRedirectAdvisor
  | AdvRender (username : option string) (chat_history : list Turn).

(** [/advisor] (lines 310-330). *)
Definition advisor (bot : Bot) (sess : Session) (is_post : bool) (form : Form)
  : Session * AdvisorOutcome :=
  if negb (is_logged_in sess) then (sess, AdvRedirectLogin)
  else
    let sess := match s_chat sess with
                | None => mkSession (s_username sess) (Some [])
                | Some _ => sess
                end in
    let history := match s_chat sess with Some h => h | None => [] end in
    let rendered := (sess, AdvRender (s_username sess) history) in
    if is_post then
      let user_input :=
        str_strip (match form_get form "user_input" with Some s => s | None => "" end) in
      match user_input with
      | EmptyString => rendered
      | String _ _ =>
          let chat_history := app history [mkTurn "user" [user_input]] in
          let full_bot_response :=
            String.concat "" (chunks (bot user_input chat_history)) in
          let chat_history := app chat_history [mkTurn "model" [full_bot_response]] in
          (mkSession (s_username sess) (Some chat_history), AdvRedirectAdvisor)
      end
    else rendered.

End Advisor.

Module Accounts.

(** A row of the [users] table. *)
Record User := mkUser { u_name : string; u_password : string }.

(** [db.query(User).filter(User.username == username).first()] *)
Fixpoint find_user (db : list User) (name : string) : option User :=
  match db with
  | [] => None
  | u :: db' => if String.eqb (u_name u) name then Some u else find_user db' name
  end.

Inductive LoginOutcome := LoginRedirectHome | LoginRender.

Definition form_str (form : Form) (k : string) : string :=
  match form_get form k with Some s => s | None => "" end.

(** [/] (lines 118-156): returns the table, the session, the flashed
    messages and the response. *)
Definition login (db : list User) (sess : Session) (is_post : bool) (form : Form)
  : list User * Session * list Flash * LoginOutcome :=
  if is_logged_in sess then (db, sess, [], LoginRedirectHome)
  else if negb is_post then (db, sess, [], LoginRender)
  else
    let action := form_get form "action" in
    let username := str_strip (form_str form "username") in
    let password := form_str form "password" in
    if (String.eqb username "" || String.eqb password "")%bool then
      (db, sess, [("Please provide username and password.", "error")], LoginRender)
    else if match action with Some a => String.eqb a "signup" | None => false end then
      match find_user db username with
      | Some _ => (db, sess, [("Username already exists.", "error")], LoginRender)
      | None =>
          (app db [mkUser username password], mkSession (Some username) (s_chat sess),
           [(String.append "Welcome, " (String.append username "! Your account has been created."),
             "success")],
           LoginRedirectHome)
      end
    else if match action with Some a => String.eqb a "login" | None => false end then
      match find_user db username with
      | Some u =>
          if String.eqb (u_password u) password then
            (db, mkSession (Some (u_name u)) (s_chat sess), [], LoginRedirectHome)
          else (db, sess, [("Invalid username or password.", "error")], LoginRender)
      | None => (db, sess, [("Invalid username or password.", "error")], LoginRender)
      end
    else (db, sess, [], LoginRender).

End Accounts.

Module Reviews.

(** A row of the [reviews] table; [created_at] is the insertion time. *)
Record Review := mkReview { r_author : string; r_content : string; r_created_at : Z }.

Inductive HomeOutcome :=
  | HomeRedirectLogin
  | HomeRedirectHome
  | HomeRender (username : option string) (reviews : list Review).

(** [/home] (lines 158-178).  [now] is [datetime.utcnow()] at insertion;
    [recent] is the query [order_by(created_at.desc()).limit(6)], whose
    order among equal timestamps the database decides. *)
Definition home (recent : list Review -> list Review) (now : Z)
    (db : list Review) (sess : Session) (is_post : bool) (form : Form)
  : list Review * list Flash * HomeOutcome :=
  match s_username sess with
  | None => (db, [], HomeRedirectLogin)
  | Some author =>
      let review_content := str_strip (Accounts.form_str form "review_content") in
      if (is_post && negb (String.eqb review_content ""))%bool then
        (app db [mkReview author review_content now],
         [("Thank you for your review!", "success")], HomeRedirectHome)
      else (db, [], HomeRender (Some author) (recent db))
  end.

End Reviews.

(* ================================================================= *)
(** ** The PDF report of [/download_pdf] *)

Module Report.

(** What [doc.build] receives: [Paragraph(text, style, bulletText=...)]
    (the style given by its name) and [Spacer(width, height)]. *)
Inductive Flowable :=
  | Paragraph (text : string) (style : string) (bullet : option string)
  | Spacer (width height : Z).

(** The line boundaries of [str.splitlines()] among ASCII characters:
    \n, \v, \f, \r, \x1c, \x1d, \x1e ("\r\n" counts as one). *)
Definition is_line_break (c : ascii) : bool :=
  let n := nat_of_ascii c in
  ((Nat.leb 10 n && Nat.leb n 13) || (Nat.leb 28 n && Nat.leb n 30))%bool.

(** [cur] is the line read so far; a trailing line is kept only when it
    is not empty, as [splitlines] does. *)
Fixpoint splitlines_aux (cur s : string) : list string :=
  match s with
  | EmptyString => match cur with EmptyString => [] | String _ _ => [cur] end
  | String c s' =>
      if is_line_break c then
        cur :: match s' with
               | String d s'' =>
                   if (Ascii.eqb c "013"%char && Ascii.eqb d "010"%char)%bool
                   then splitlines_aux EmptyString s''
                   else splitlines_aux EmptyString s'
               | EmptyString => splitlines_aux EmptyString s'
               end
      else splitlines_aux (String.append cur (String c EmptyString)) s'
  end.

(** [s.splitlines()] *)
Definition splitlines (s : string) : list string := splitlines_aux EmptyString s.

(** The loop over [recommendations.splitlines()] (lines 434-442). *)
Fixpoint rec_loop (lines : list string) (elements : list Flowable) : list Flowable :=
  match lines with
  | [] => elements
  | line :: rest =>
      let ln := str_strip line in
      if String.eqb ln "" then rec_loop rest elements
      else if starts_with "- " ln
      then rec_loop rest (app elements [Paragraph (drop2 ln) "Bullet" (Some "•")])
      else rec_loop rest (app elements [Paragraph ln "Normal" None])
  end.

Definition NO_RECOMMENDATIONS : string :=
  "No specific recommendations were provided. Stress levels appear balanced.".

(** The recommendations section (lines 432-448), [recommendations]
    already stripped. *)
Definition rec_section (recommendations : string) : list Flowable :=
  match recommendations with
  | String _ _ => rec_loop (splitlines recommendations) []
  | EmptyString => [Paragraph NO_RECOMMENDATIONS "Normal" None]
  end.






End Report.

(* ================================================================= *)
(** ** Closed forms of the loops *)

Definition is_high (p : string * Z) : bool := Z.geb (snd p) high_threshold.
Definition is_low (p : string * Z) : bool :=
  (negb (Z.geb (snd p) high_threshold) && Z.leb (snd p) low_threshold)%bool.

Definition attention_item (p : string * Z) : Item :=
  mkItem (fst p) (snd p) (attention_tip (fst p)).
Definition maintain_item (p : string * Z) : Item :=
  mkItem (fst p) (snd p) (maintain_tip (fst p)).

Lemma bucket_loop_eq (l : list (string * Z)) (a m : list Item) :
  bucket_loop l a m =
  (app a (List.map attention_item (List.filter is_high l)),
   app m (List.map maintain_item (List.filter is_low l))).
Proof.
  revert a m; induction l as [|[f v] l IH]; intros a m; simpl.
  - by rewrite !app_nil_r.
  - unfold is_high at 1, is_low at 1; simpl.
    destruct (Z.geb v high_threshold) eqn:Hh; simpl.
    + rewrite IH; simpl. by rewrite <- app_assoc.
    + destruct (Z.leb v low_threshold); simpl; rewrite IH; simpl;
        [by rewrite <- app_assoc | done].
Qed.

Lemma buckets_eq (l : list (string * Z)) :
  buckets l =
  (List.map attention_item (List.filter is_high l),
   List.map maintain_item (List.filter is_low l)).
Proof. apply bucket_loop_eq. Qed.

(** The collector computes every feature independently of the others. *)
Lemma collect_eq (form : Form) :
  collect form =
  (List.map (field_value form) MODEL_FEATURE_ORDER,
   List.map (fun f => (f, field_value form f)) MODEL_FEATURE_ORDER).
Proof. reflexivity. Qed.

Lemma dict_get_map {V} (g : string -> V) (l : list string) (k : string) :
  In k l -> dict_get (List.map (fun f => (f, g f)) l) k = Some (g k).
Proof.
  induction l as [|f l IH]; simpl; [done|].
  intros Hin. destruct (String.eqb k f) eqn:E.
  - apply String.eqb_eq in E. by subst.
  - apply IH. destruct Hin as [->|]; [|done].
    by rewrite String.eqb_refl in E.
Qed.

Lemma MODEL_FEATURE_ORDER_NoDup : NoDup MODEL_FEATURE_ORDER.
Proof. apply (bool_decide_unpack _). vm_compute. reflexivity. Qed.

(** Items with the same name in a collected vector carry the same value. *)
Lemma collected_functional (form : Form) (f : string) (v : Z) :
  In (f, v) (snd (collect form)) -> v = field_value form f.
Proof.
  rewrite collect_eq; cbn [snd]. intros Hin.
  apply in_map_iff in Hin as (f' & Heq & _). by injection Heq as -> ->.
Qed.

Lemma filter_perm (P : string * Z -> bool) (l l' : list (string * Z)) :
  Permutation l l' -> Permutation (List.filter P l) (List.filter P l').
Proof.
  induction 1 as [|x l l' _ IH|x y l|l l' l'' _ IH1 _ IH2]; simpl.
  - constructor.
  - destruct (P x); [constructor|]; done.
  - destruct (P x), (P y); try constructor; done.
  - by etrans.
Qed.

Lemma filter_fst_sublist (P : string * Z -> bool) (l : list (string * Z)) :
  sublist (List.map fst (List.filter P l)) (List.map fst l).
Proof.
  induction l as [|x l IH]; simpl; [constructor|].
  destruct (P x); simpl; by constructor.
Qed.

Lemma filter_fst_in (P : string * Z -> bool) (l : list (string * Z)) (f : string) :
  In f (List.map fst (List.filter P l)) -> In f (List.map fst l).
Proof.
  intros H. apply in_map_iff in H as (x & <- & Hx).
  apply filter_In in Hx as [Hx _]. by apply in_map.
Qed.

Lemma map_factor_attention (l : list (string * Z)) :
  List.map factor (List.map attention_item l) = List.map fst l.
Proof. induction l; simpl; congruence. Qed.

Lemma map_factor_maintain (l : list (string * Z)) :
  List.map factor (List.map maintain_item l) = List.map fst l.
Proof. induction l; simpl; congruence. Qed.

Lemma high_not_low (p : string * Z) : is_high p = true -> is_low p = false.
Proof. unfold is_low, is_high. intros ->. done. Qed.

(** Two exclusive filters of a list with distinct names give distinct names. *)
Lemma NoDup_filters (l : list (string * Z)) :
  NoDup (List.map fst l) ->
  NoDup (List.map fst (List.filter is_high l) ++ List.map fst (List.filter is_low l)).
Proof.
  induction l as [|x l IH]; simpl; [constructor|].
  intros Hnd. apply NoDup_cons in Hnd as [Hx Hnd].
  assert (Hout : ~ In (fst x) (List.map fst (List.filter is_high l) ++
                              List.map fst (List.filter is_low l))).
  { intros Hin. apply in_app_or in Hin as [Hin|Hin];
      apply Hx, list_elem_of_In; eapply filter_fst_in; eauto. }
  destruct (is_high x) eqn:Hh.
  - rewrite (high_not_low x Hh); simpl.
    apply NoDup_cons; split; [by rewrite list_elem_of_In|auto].
  - destruct (is_low x); simpl; [|auto].
    rewrite <- Permutation_middle.
    apply NoDup_cons; split; [by rewrite list_elem_of_In|auto].
Qed.

Lemma in_attention (l : list (string * Z)) (it : Item) :
  In it (fst (buckets l)) <->
  exists f v, In (f, v) l /\ high_threshold <= v /\ it = mkItem f v (attention_tip f).
Proof.
  rewrite buckets_eq; cbn [fst]. rewrite in_map_iff. split.
  - intros ([f v] & <- & Hin). apply filter_In in Hin as [Hin Hh].
    exists f, v. unfold is_high in Hh; simpl in Hh. split; [done|split; [lia|done]].
  - intros (f & v & Hin & Hv & ->). exists (f, v). split; [done|].
    apply filter_In. split; [done|]. unfold is_high; simpl; lia.
Qed.

Lemma in_maintain (l : list (string * Z)) (it : Item) :
  In it (snd (buckets l)) <->
  exists f v, In (f, v) l /\ v <= low_threshold /\ it = mkItem f v (maintain_tip f).
Proof.
  rewrite buckets_eq; cbn [snd]. rewrite in_map_iff. split.
  - intros ([f v] & <- & Hin). apply filter_In in Hin as [Hin Hl].
    exists f, v. unfold is_low, high_threshold, low_threshold in *; simpl in Hl.
    apply andb_true_iff in Hl as [_ Hl]. split; [done|split; [lia|done]].
  - intros (f & v & Hin & Hv & ->). exists (f, v). split; [done|].
    apply filter_In. split; [done|].
    unfold is_low, high_threshold, low_threshold in *; simpl.
    apply andb_true_iff; split; [apply negb_true_iff|]; lia.
Qed.

Lemma factor_in_attention (l : list (string * Z)) (f : string) :
  In f (List.map factor (fst (buckets l))) <->
  exists v, In (f, v) l /\ high_threshold <= v.
Proof.
  rewrite in_map_iff. split.
  - intros (it & <- & Hit). apply in_attention in Hit as (f & v & Hin & Hv & ->).
    by exists v.
  - intros (v & Hin & Hv). exists (mkItem f v (attention_tip f)).
    split; [done|]. apply in_attention. by exists f, v.
Qed.

Lemma factor_in_maintain (l : list (string * Z)) (f : string) :
  In f (List.map factor (snd (buckets l))) <->
  exists v, In (f, v) l /\ v <= low_threshold.
Proof.
  rewrite in_map_iff. split.
  - intros (it & <- & Hit). apply in_maintain in Hit as (f & v & Hin & Hv & ->).
    by exists v.
  - intros (v & Hin & Hv). exists (mkItem f v (maintain_tip f)).
    split; [done|]. apply in_maintain. by exists f, v.
Qed.

Lemma lookup_map_list {A B} (g : A -> B) (l : list A) (i : nat) (x : A) :
  l !! i = Some x -> (List.map g l) !! i = Some (g x).
Proof.
  revert i; induction l as [|y l IH]; intros [|i]; simpl; try done.
  - by intros [= ->].
  - apply IH.
Qed.

Lemma map_fst_collected (form : Form) :
  List.map fst (snd (collect form)) = MODEL_FEATURE_ORDER.
Proof.
  rewrite collect_eq; cbn [snd]. rewrite map_map. apply map_id.
Qed.

(* ================================================================= *)
(** ** Claims about the collector and the recommendation engine *)

(** C1: for a collected vector, a feature with value >= 7 is in the
    attention bucket with the table tip or the generic fallback and not in
    the maintain bucket; a value <= 3 puts it in the maintain bucket with
    the "Good — keep doing this. " tip or the generic low-risk text and not
    in the attention bucket; a value strictly between 3 and 7 puts it in
    neither bucket. *)
Theorem C1_bucket_classification (form : Form) (f : string) (v : Z) :
  In (f, v) (snd (collect form)) ->
  let b := buckets (snd (collect form)) in
  (7 <= v ->
     In (mkItem f v (match dict_get RECOMMENDATIONS_DB f with
                     | Some t => t
                     | None => GENERIC_HIGH_TIP end)) (fst b) /\
     ~ In f (List.map factor (snd b))) /\
  (v <= 3 ->
     In (mkItem f v (match dict_get RECOMMENDATIONS_DB f with
                     | Some t => String.append "Good — keep doing this. " t
                     | None => GENERIC_LOW_TIP end)) (snd b) /\
     ~ In f (List.map factor (fst b))) /\
  (3 < v < 7 ->
     ~ In f (List.map factor (fst b)) /\ ~ In f (List.map factor (snd b))).
Proof.
  intros Hin b. subst b.
  pose proof (collected_functional form f v Hin) as Hv.
  assert (Huniq : forall v', In (f, v') (snd (collect form)) -> v' = v).
  { intros v' Hv'. rewrite (collected_functional form f v' Hv'). done. }
  unfold high_threshold, low_threshold in *.
  split; [|split].
  - intros Hge. split.
    + apply in_attention. exists f, v. split; [done|split; [done|]].
      reflexivity.
    + intros Hm. apply factor_in_maintain in Hm as (v' & Hv' & Hle).
      apply Huniq in Hv'. unfold low_threshold in Hle. lia.
  - intros Hle. split.
    + apply in_maintain. exists f, v. split; [done|split; [done|]].
      reflexivity.
    + intros Ha. apply factor_in_attention in Ha as (v' & Hv' & Hge).
      apply Huniq in Hv'. unfold high_threshold in Hge. lia.
  - intros Hmid. split.
    + intros Ha. apply factor_in_attention in Ha as (v' & Hv' & Hge).
      apply Huniq in Hv'. unfold high_threshold in Hge. lia.
    + intros Hm. apply factor_in_maintain in Hm as (v' & Hv' & Hle).
      apply Huniq in Hv'. unfold low_threshold in Hle. lia.
Qed.

Lemma C1_bucket_classification_witness :
  In ("anxiety_level", 9) (snd (collect [("anxiety_level", "9")])) /\
  In (mkItem "anxiety_level" 9
        "Try practicing the 4-7-8 breathing technique. Also, consider mindfulness apps for guided meditation.")
     (fst (buckets (snd (collect [("anxiety_level", "9")])))).
Proof.
  assert (H : In ("anxiety_level", 9) (snd (collect [("anxiety_level", "9")])))
    by (vm_compute; left; reflexivity).
  split; [exact H|].
  apply (proj1 (C1_bucket_classification [("anxiety_level", "9")] "anxiety_level" 9 H)).
  lia.
Defined.


(** Out-of-range integers reach the classifier unchanged. *)
Example collect_out_of_range :
  fst (collect [("anxiety_level", "0"); ("bullying", "99")]) =
  [0; 5; 5; 5; 5; 5; 5; 5; 5; 5; 5; 5; 5; 5; 5; 5; 5; 5; 5; 99].
Proof. reflexivity. Qed.

(** C6: for a collected vector every feature name occurs at most once
    across the attention list followed by the maintain list; in particular
    the two lists share no name. *)
Theorem C6_buckets_disjoint (form : Form) :
  let b := buckets (snd (collect form)) in
  NoDup (List.map factor (fst b ++ snd b)) /\
  (forall f, In f (List.map factor (fst b)) -> ~ In f (List.map factor (snd b))).
Proof.
  intros b.
  assert (Hnd : NoDup (List.map factor (fst b ++ snd b))).
  { subst b. rewrite buckets_eq; cbn [fst snd].
    rewrite map_app, map_factor_attention, map_factor_maintain.
    apply NoDup_filters. rewrite map_fst_collected.
    apply MODEL_FEATURE_ORDER_NoDup. }
  split; [done|].
  rewrite map_app in Hnd. apply NoDup_app in Hnd as (_ & Hdis & _).
  intros x Hx1 Hx2. apply (Hdis x); by apply list_elem_of_In.
Qed.

(** C9: iterating the collected features in any other order yields the
    same bucket contents (each list a permutation of the original one), and
    the buckets of the collected vector list their names in schedule order
    (as a subsequence of [MODEL_FEATURE_ORDER]). *)
Theorem C9_order_independent (form : Form) (l : list (string * Z)) :
  Permutation l (snd (collect form)) ->
  Permutation (fst (buckets l)) (fst (buckets (snd (collect form)))) /\
  Permutation (snd (buckets l)) (snd (buckets (snd (collect form)))) /\
  sublist (List.map factor (fst (buckets (snd (collect form))))) MODEL_FEATURE_ORDER /\
  sublist (List.map factor (snd (buckets (snd (collect form))))) MODEL_FEATURE_ORDER.
Proof.
  intros Hp. rewrite !buckets_eq; cbn [fst snd].
  rewrite map_factor_attention, map_factor_maintain.
  rewrite <- (map_fst_collected form).
  split; [|split; [|split]].
  - apply Permutation_map, filter_perm, Hp.
  - apply Permutation_map, filter_perm, Hp.
  - apply filter_fst_sublist.
  - apply filter_fst_sublist.
Qed.

Lemma C9_order_independent_witness :
  Permutation (rev (snd (collect [("sleep_quality", "2"); ("bullying", "8")])))
              (snd (collect [("sleep_quality", "2"); ("bullying", "8")])) /\
  Permutation (fst (buckets (rev (snd (collect [("sleep_quality", "2"); ("bullying", "8")])))))
              (fst (buckets (snd (collect [("sleep_quality", "2"); ("bullying", "8")])))).
Proof.
  assert (Hp : Permutation (rev (snd (collect [("sleep_quality", "2"); ("bullying", "8")])))
                           (snd (collect [("sleep_quality", "2"); ("bullying", "8")])))
    by (symmetry; apply Permutation_rev).
  split; [exact Hp|].
  exact (proj1 (C9_order_independent [("sleep_quality", "2"); ("bullying", "8")] _ Hp)).
Defined.

(** C10: position [i] of the list handed to the classifier holds the value
    stored in the feature dictionary under the [i]-th scheduled name. *)
Theorem C10_classifier_input_agrees (form : Form) (i : nat) (name : string) :
  MODEL_FEATURE_ORDER !! i = Some name ->
  fst (collect form) !! i = dict_get (snd (collect form)) name.
Proof.
  intros Hi. rewrite collect_eq; cbn [fst snd].
  rewrite (lookup_map_list _ _ _ _ Hi).
  rewrite dict_get_map; [done|].
  apply list_elem_of_In. by eapply list_elem_of_lookup_2.
Qed.

Lemma C10_classifier_input_agrees_witness :
  MODEL_FEATURE_ORDER !! 19%nat = Some "bullying" /\
  fst (collect [("bullying", "4")]) !! 19%nat = dict_get (snd (collect [("bullying", "4")])) "bullying".
Proof.
  assert (H : MODEL_FEATURE_ORDER !! 19%nat = Some "bullying") by reflexivity.
  split; [exact H|].
  exact (C10_classifier_input_agrees [("bullying", "4")] 19 "bullying" H).
Defined.

(* ================================================================= *)
(** ** The arg-max on rationals *)

Open Scope list_scope.

Lemma Qltb_iff (a b : Q) : Qltb a b = true <-> (a < b)%Q.
Proof.
  unfold Qltb. rewrite negb_true_iff. split.
  - intros Hf. apply Qnot_le_lt. intros Hle.
    apply Qle_bool_iff in Hle. congruence.
  - intros Hlt. destruct (Qle_bool b a) eqn:E; [|done].
    apply Qle_bool_iff in E. exfalso. by apply (Qlt_not_le a b).
Qed.

Lemma Qltb_false (a b : Q) : Qltb a b = false -> (b <= a)%Q.
Proof.
  unfold Qltb. rewrite negb_false_iff. apply Qle_bool_iff.
Qed.

Lemma lookup_snoc_Some (pre : list Q) (x y : Q) (j : nat) :
  (pre ++ [x]) !! j = Some y -> pre !! j = Some y \/ y = x.
Proof.
  rewrite lookup_app_Some. intros [H|[_ H]]; [by left|right].
  destruct (j - List.length pre)%nat; simpl in H; [by injection H|done].
Qed.

(** Loop invariant of [argmax_from]: [bv] sits at [best] in the prefix
    already scanned, bounds it, and is strictly above every entry before
    [best]. *)
Lemma argmax_from_spec (l pre : list Q) (best : nat) (bv : Q) :
  pre !! best = Some bv ->
  (forall j x, pre !! j = Some x -> (x <= bv)%Q) ->
  (forall j x, (j < best)%nat -> pre !! j = Some x -> (x < bv)%Q) ->
  exists m, (pre ++ l) !! argmax_from Qltb l (List.length pre) best bv = Some m /\
    (forall j x, (pre ++ l) !! j = Some x -> (x <= m)%Q) /\
    (forall j x, (j < argmax_from Qltb l (List.length pre) best bv)%nat ->
                 (pre ++ l) !! j = Some x -> (x < m)%Q).
Proof.
  revert pre best bv; induction l as [|x l IH]; intros pre best bv Hb Hle Hlt; simpl.
  - rewrite app_nil_r. by exists bv.
  - replace (pre ++ x :: l) with ((pre ++ [x]) ++ l) by (by rewrite <- app_assoc).
    assert (Hlen : S (List.length pre) = List.length (pre ++ [x])) by (rewrite length_app; simpl; lia).
    rewrite Hlen.
    assert (Hbest : (best < List.length pre)%nat) by (eapply lookup_lt_Some; eauto).
    destruct (Qltb bv x) eqn:E.
    + apply Qltb_iff in E. apply IH.
      * rewrite lookup_app_r; [|lia]. by rewrite Nat.sub_diag.
      * intros j y Hj. apply lookup_snoc_Some in Hj as [Hj| ->]; [|apply Qle_refl].
        apply Qlt_le_weak, (Qle_lt_trans _ bv); eauto.
      * intros j y Hj Hy. rewrite lookup_app_l in Hy; [|done].
        apply (Qle_lt_trans _ bv); eauto.
    + apply Qltb_false in E. apply IH.
      * by apply lookup_app_l_Some.
      * intros j y Hj. apply lookup_snoc_Some in Hj as [Hj| ->]; eauto.
      * intros j y Hj Hy. rewrite lookup_app_l in Hy; [|lia]. eauto.
Qed.

(** [np.argmax] returns the first index holding the maximum. *)
Lemma np_argmax_spec (l : list Q) (i : nat) :
  np_argmax Qltb l = inr i ->
  exists m, l !! i = Some m /\
    (forall j x, l !! j = Some x -> (x <= m)%Q) /\
    (forall j x, (j < i)%nat -> l !! j = Some x -> (x < m)%Q).
Proof.
  destruct l as [|x l]; simpl; [done|]. intros [= <-].
  apply (argmax_from_spec l [x] 0 x); [done| |lia].
  intros [|j] y Hy; simpl in Hy; [injection Hy as ->; apply Qle_refl|done].
Qed.

(* ================================================================= *)
(** ** Claims about the route *)

(** When the classifier answers with a three-entry first row, [score]
    reduces to the arg-max, the label lookup and the scaled triple. *)
Lemma score_on_triple {N} `{PyNum N} (clf : Classifier N) (form : Form)
    (p0 p1 p2 : N) (rows : list (list N)) :
  predict_proba clf [fst (collect form)] = inr ([p0; p1; p2] :: rows) ->
  score clf form =
    bindE (np_argmax num_ltb [p0; p1; p2]) (fun i =>
    bindE (py_index stress_labels i) (fun lvl =>
    ret (mkResult lvl
           (num_mul p0 num_hundred, num_mul p1 num_hundred, num_mul p2 num_hundred)
           (fst (buckets (snd (collect form)))) (snd (buckets (snd (collect form))))
           (snd (collect form))
           (pack (fst (buckets (snd (collect form)))) (snd (buckets (snd (collect form)))))))).
Proof.
  intros Hp. unfold score. destruct (collect form) as [input_data fv].
  cbn [fst snd] in Hp |- *. rewrite Hp. cbn [bindE].
  change (py_index ([p0; p1; p2] :: rows) 0) with (inr (A:=Exc) [p0; p1; p2]).
  cbn [bindE].
  generalize (np_argmax num_ltb [p0; p1; p2]); intros [e|i]; cbn [bindE]; [done|].
  destruct (py_index stress_labels i); cbn [bindE]; [done|].
  by destruct (buckets fv).
Qed.

(** C3: with probabilities [p0; p1; p2] for Low, Medium, High, the
    reported label is the one at an index [i] holding the maximum, and
    every entry before [i] is strictly smaller, so ties go to the lowest
    index. *)
Theorem C3_label_is_first_argmax (clf : Classifier Q) (form : Form)
    (p0 p1 p2 : Q) (rows : list (list Q)) :
  predict_proba clf [fst (collect form)] = inr ([p0; p1; p2] :: rows) ->
  exists r i pi, score clf form = inr r /\
    [p0; p1; p2] !! i = Some pi /\ stress_labels !! i = Some (level r) /\
    (forall j pj, [p0; p1; p2] !! j = Some pj -> (pj <= pi)%Q) /\
    (forall j pj, (j < i)%nat -> [p0; p1; p2] !! j = Some pj -> (pj < pi)%Q).
Proof.
  intros Hp. rewrite (score_on_triple clf form p0 p1 p2 rows Hp).
  assert (Ha : np_argmax Qltb [p0; p1; p2] = inr (argmax_from Qltb [p1; p2] 1 0 p0))
    by reflexivity.
  change (@np_argmax Q num_ltb [p0; p1; p2]) with (np_argmax Qltb [p0; p1; p2]).
  rewrite Ha. cbn [bindE].
  destruct (np_argmax_spec _ _ Ha) as (m & Hm & Hle & Hlt).
  set (i := argmax_from Qltb [p1; p2] 1 0 p0) in *.
  assert (Hi : (i < 3)%nat) by (apply lookup_lt_Some in Hm; done).
  assert (Hlbl : exists lbl, stress_labels !! i = Some lbl).
  { destruct i as [|[|[|i']]]; [eauto|eauto|eauto|lia]. }
  destruct Hlbl as [lbl Hlbl].
  assert (Hpy : py_index stress_labels i = inr lbl) by (unfold py_index; by rewrite Hlbl).
  rewrite Hpy. cbn [bindE].
  eexists. exists i, m. split; [reflexivity|]. split; [done|].
  split; [exact Hlbl|]. split; [done|]. exact Hlt.
Qed.

Definition tie_classifier : Classifier Q :=
  mkClassifier (fun _ => inr [[1 # 5; 2 # 5; 2 # 5]]).

Lemma C3_label_is_first_argmax_witness :
  predict_proba tie_classifier [fst (collect [])] = inr ([1 # 5; 2 # 5; 2 # 5] :: []) /\
  exists r i pi, score tie_classifier [] = inr r /\
    [1 # 5; 2 # 5; 2 # 5] !! i = Some pi /\ stress_labels !! i = Some (level r) /\
    (forall j pj, [1 # 5; 2 # 5; 2 # 5] !! j = Some pj -> (pj <= pi)%Q) /\
    (forall j pj, (j < i)%nat -> [1 # 5; 2 # 5; 2 # 5] !! j = Some pj -> (pj < pi)%Q).
Proof.
  assert (H : predict_proba tie_classifier [fst (collect [])]
              = inr ([1 # 5; 2 # 5; 2 # 5] :: [])) by reflexivity.
  split; [exact H|].
  exact (C3_label_is_first_argmax tie_classifier [] _ _ _ [] H).
Defined.

(** A tie between Medium and High reports Medium. *)
Example tie_reports_medium :
  option_map level (match score tie_classifier [] with inr r => Some r | inl _ => None end)
  = Some "Medium".
Proof. reflexivity. Qed.






(** C7: a logged-in POST while the model failed to load flashes the
    "not loaded" message, renders no prediction and raises nothing; the
    form is not scored. *)
Theorem C7_model_not_loaded {N} `{PyNum N} (form : Form) :
  predictor true true None form =
  Render (mkResponse [(MSG_NOT_LOADED, "error")] None "").
Proof. reflexivity. Qed.

(** C8: when scoring raises (classifier error, empty answer, arg-max of an
    empty row, a label index past "High", fewer than three probabilities),
    the route flashes the generic failure message and renders no
    prediction.  Collection, bucketing and packing are total here: [int()]
    failures are caught inside the loop and the string operations of the
    packer cannot raise. *)
Theorem C8_scoring_exception_caught {N} `{PyNum N} (clf : Classifier N)
    (form : Form) (e : Exc) :
  score clf form = inl e ->
  predictor true true (Some clf) form =
  Render (mkResponse [(MSG_FAILED, "error")] None "").
Proof. intros He. unfold predictor; simpl. by rewrite He. Qed.

Definition four_class_classifier : Classifier Q :=
  mkClassifier (fun _ => inr [[0; 0; 0; 1]]%Q).

Lemma C8_scoring_exception_caught_witness :
  score four_class_classifier [] = inl IndexError /\
  predictor true true (Some four_class_classifier) [] =
  Render (mkResponse [(MSG_FAILED, "error")] None "").
Proof.
  assert (H : score four_class_classifier [] = inl IndexError) by reflexivity.
  split; [exact H|].
  exact (C8_scoring_exception_caught four_class_classifier [] IndexError H).
Defined.

(* ================================================================= *)
(** ** The report packer *)

(** A header followed by one line per item, or nothing for no items. *)
Definition section (header : string) (items : list Item) : list string :=
  match items with
  | [] => []
  | _ :: _ => header :: List.map item_line items
  end.

(** The layout read literally from the claim: the attention section, one
    blank line, the maintain section; the fallback line when both are
    empty. *)
Definition pack_as_claimed (affected maintain : list Item) : string :=
  match affected, maintain with
  | [], [] => FALLBACK_LINE
  | _, _ =>
      String.concat (String "010"%char EmptyString)
        (section "Affected Parameters:" affected ++ [""] ++
         section "Parameters to Maintain:" maintain)
  end.

Lemma append_item_lines_eq (acc : list string) (items : list Item) :
  append_item_lines acc items = acc ++ List.map item_line items.
Proof.
  revert acc; induction items as [|a items IH]; intros acc; simpl.
  - by rewrite app_nil_r.
  - rewrite IH. by rewrite <- app_assoc.
Qed.

(** C5 as stated fails: with only an attention item the packed text has no
    blank line, while the claim puts one between the sections always. *)
Lemma C5_separator_counterexample :
  let b := buckets (snd (collect [("anxiety_level", "9")])) in
  pack (fst b) (snd b) <> pack_as_claimed (fst b) (snd b).
Proof. vm_compute. intros H. discriminate H. Qed.

(** C5 (amended): the packed text is the attention section, then a blank
    line only when both buckets are non-empty, then the maintain section,
    joined by newlines; each item line shows the humanized name, the value
    and the tip; with both buckets empty it is exactly the fallback line.
    Humanizing turns underscores into spaces and title-cases the words. *)
Theorem C5_pack_layout (affected maintain : list Item) :
  pack affected maintain =
    match affected, maintain with
    | [], [] => "No specific high-risk parameters detected. Inputs look balanced."
    | _, _ =>
        String.concat (String "010"%char EmptyString)
          (section "Affected Parameters:" affected ++
           (match affected, maintain with
            | _ :: _, _ :: _ => [""]
            | _, _ => []
            end) ++
           section "Parameters to Maintain:" maintain)
    end /\
  (forall it : Item,
     item_line it =
     String.append (humanize (factor it))
       (String.append " (" (String.append (str_int (value it))
          (String.append "): " (tip it))))) /\
  List.map humanize MODEL_FEATURE_ORDER =
    [ "Anxiety Level"; "Self Esteem"; "Mental Health History"; "Depression";
      "Headache"; "Blood Pressure"; "Sleep Quality"; "Breathing Problem";
      "Noise Level"; "Living Conditions"; "Safety"; "Basic Needs";
      "Academic Performance"; "Study Load"; "Teacher Student Relationship";
      "Future Career Concerns"; "Social Support"; "Peer Pressure";
      "Extracurricular Activities"; "Bullying" ].
Proof.
  split; [|split; [intros it; reflexivity|reflexivity]].
  unfold pack.
  destruct affected as [|a affected], maintain as [|m maintain];
    rewrite ?append_item_lines_eq; simpl; rewrite ?app_nil_r, <- ?app_assoc; reflexivity.
Qed.

(** The example of the specification: all answers 5 give the fallback. *)
Example pack_all_fives :
  let b := buckets (snd (collect [])) in pack (fst b) (snd b) = FALLBACK_LINE.
Proof. reflexivity. Qed.

(* ================================================================= *)
(** ** The chat wrapper: retries and replies *)

Module ChatbotFacts.
Import Chatbot.

Section Loop.
Context (api : Api) (history : list Turn) (prompt : string).

Lemma bot_loop_first (k : nat) :
  forall (fuel retries : nat) (slept_s : Z),
  (k < fuel)%nat ->
  (forall j, (j < k)%nat -> outcome_rate_limited (api history prompt (retries + j)%nat) = true) ->
  outcome_rate_limited (api history prompt (retries + k)%nat) = false ->
  bot_loop api history prompt fuel retries slept_s =
  mkRun (final_reply (api history prompt (retries + k)%nat)) (S (retries + k))%nat
        (slept_s + 12 * Z.of_nat k).
Proof.
  induction k as [|k IH]; intros fuel retries slept_s Hk Hbefore Hk_ok;
    destruct fuel as [|fuel]; try lia; simpl.
  - rewrite Nat.add_0_r in Hk_ok |- *. rewrite Z.add_0_r.
    destruct (api history prompt retries) as [text|msg]; simpl in *; [done|].
    rewrite Hk_ok. by destruct (contains "API key not valid" msg).
  - pose proof (Hbefore 0%nat ltac:(lia)) as H0. rewrite Nat.add_0_r in H0.
    destruct (api history prompt retries) as [text|msg] eqn:E; simpl in H0; [done|].
    rewrite H0.
    rewrite (IH fuel (S retries) (slept_s + 12)); [| lia | |].
    + replace (S retries + k)%nat with (retries + S k)%nat by lia.
      f_equal. lia.
    + intros j Hj. replace (S retries + j)%nat with (retries + S j)%nat by lia.
      apply Hbefore. lia.
    + by replace (S retries + k)%nat with (retries + S k)%nat by lia.
Qed.

Lemma bot_loop_exhausted (fuel : nat) :
  forall (retries : nat) (slept_s : Z),
  (forall j, (j < fuel)%nat -> outcome_rate_limited (api history prompt (retries + j)%nat) = true) ->
  bot_loop api history prompt fuel retries slept_s =
  mkRun MSG_LIMITS (retries + fuel)%nat (slept_s + 12 * Z.of_nat fuel).
Proof.
  induction fuel as [|fuel IH]; intros retries slept_s Hall; simpl.
  - by rewrite Nat.add_0_r, Z.add_0_r.
  - pose proof (Hall 0%nat ltac:(lia)) as H0. rewrite Nat.add_0_r in H0.
    destruct (api history prompt retries) as [text|msg]; simpl in H0; [done|].
    rewrite H0, IH.
    + f_equal; lia.
    + intros j Hj. replace (S retries + j)%nat with (retries + S j)%nat by lia.
      apply Hall. lia.
Qed.

Lemma bot_loop_bounds (fuel : nat) :
  forall (retries : nat) (slept_s : Z),
  let r := bot_loop api history prompt fuel retries slept_s in
  (retries <= calls r <= retries + fuel)%nat /\
  slept_s <= slept r <= slept_s + 12 * Z.of_nat (calls r - retries).
Proof.
  induction fuel as [|fuel IH]; intros retries slept_s; simpl.
  - split; [lia|]. rewrite Nat.sub_diag. lia.
  - destruct (api history prompt retries) as [text|msg]; simpl.
    + split; [lia|]. lia.
    + destruct (is_rate_limited msg).
      * destruct (IH (S retries) (slept_s + 12)) as [Hc Hs]. split; [lia|]. lia.
      * destruct (contains "API key not valid" msg); simpl; (split; [lia|lia]).
Qed.

End Loop.

End ChatbotFacts.

(** [get_bot_response] makes as many attempts as it is rate-limited plus
    one: when attempts [0..k-1] fail with a rate-limit error and attempt
    [k < max_retries] does not, the reply is decided by attempt [k] alone
    (its text, the API-key message, or the generic apology), after [k+1]
    calls and [12 k] seconds of sleep. *)
Theorem get_bot_response_first_decisive (api : Chatbot.Api) (user_prompt : string)
    (chat_history : option (list Turn)) (max_retries : Z) (k : nat) :
  let history := match chat_history with Some h => h | None => [] end in
  Z.of_nat k < max_retries ->
  (forall j, (j < k)%nat ->
     Chatbot.outcome_rate_limited (api history user_prompt j) = true) ->
  Chatbot.outcome_rate_limited (api history user_prompt k) = false ->
  Chatbot.get_bot_response api user_prompt chat_history max_retries =
  Chatbot.mkRun (Chatbot.final_reply (api history user_prompt k)) (S k) (12 * Z.of_nat k).
Proof.
  intros history Hk Hbefore Hok. unfold Chatbot.get_bot_response.
  fold history.
  rewrite (ChatbotFacts.bot_loop_first api history user_prompt k); try done; lia.
Qed.

(** A model that is rate limited once, then rejects the key. *)
Definition limited_then_bad_key : Chatbot.Api :=
  fun _ _ n =>
    match n with
    | O => Chatbot.Raised "429 Resource has been exhausted"
    | _ => Chatbot.Raised "400 API key not valid. Please pass a valid API key."
    end.

Lemma get_bot_response_first_decisive_witness :
  Z.of_nat 1 < 3 /\
  Chatbot.get_bot_response limited_then_bad_key "hi" None 3 =
  Chatbot.mkRun Chatbot.MSG_API_KEY 2 12.
Proof.
  split; [lia|].
  exact (get_bot_response_first_decisive limited_then_bad_key "hi" None 3 1
           ltac:(lia)
           ltac:(intros j Hj; destruct j as [|j]; [reflexivity|lia])
           eq_refl).
Defined.

(** When every allowed attempt is rate limited, [get_bot_response] gives
    up with the "still hitting limits" message after [max_retries] calls,
    having slept 12 seconds after each of them, the last one included. *)
Theorem get_bot_response_exhausted (api : Chatbot.Api) (user_prompt : string)
    (chat_history : option (list Turn)) (max_retries : Z) :
  let history := match chat_history with Some h => h | None => [] end in
  (forall j, (j < Z.to_nat max_retries)%nat ->
     Chatbot.outcome_rate_limited (api history user_prompt j) = true) ->
  Chatbot.get_bot_response api user_prompt chat_history max_retries =
  Chatbot.mkRun Chatbot.MSG_LIMITS (Z.to_nat max_retries)
                (12 * Z.of_nat (Z.to_nat max_retries)).
Proof.
  intros history Hall. unfold Chatbot.get_bot_response. fold history.
  by rewrite ChatbotFacts.bot_loop_exhausted.
Qed.

Definition always_quota : Chatbot.Api :=
  fun _ _ _ => Chatbot.Raised "Quota exceeded for requests per minute".

Lemma get_bot_response_exhausted_witness :
  (forall j, (j < Z.to_nat 3)%nat ->
     Chatbot.outcome_rate_limited (always_quota [] "hi" j) = true) /\
  Chatbot.get_bot_response always_quota "hi" None 3 = Chatbot.mkRun Chatbot.MSG_LIMITS 3 36.
Proof.
  assert (H : forall j, (j < Z.to_nat 3)%nat ->
     Chatbot.outcome_rate_limited (always_quota [] "hi" j) = true) by reflexivity.
  split; [exact H|].
  exact (get_bot_response_exhausted always_quota "hi" None 3 H).
Defined.

(** Whatever the model does, [get_bot_response] calls it at most
    [max(max_retries, 0)] times and sleeps at most 12 seconds per call. *)
Theorem get_bot_response_bounded (api : Chatbot.Api) (user_prompt : string)
    (chat_history : option (list Turn)) (max_retries : Z) :
  let r := Chatbot.get_bot_response api user_prompt chat_history max_retries in
  (Chatbot.calls r <= Z.to_nat max_retries)%nat /\
  0 <= Chatbot.slept r <= 12 * Z.of_nat (Chatbot.calls r).
Proof.
  unfold Chatbot.get_bot_response.
  destruct (ChatbotFacts.bot_loop_bounds api
              (match chat_history with Some h => h | None => [] end)
              user_prompt (Z.to_nat max_retries) 0 0) as [Hc Hs].
  rewrite Nat.sub_0_r in Hs. split; lia.
Qed.

(* ================================================================= *)
(** ** [str.strip()] *)






(* ================================================================= *)
(** ** The advisor and the session *)










(** Logging out drops both session keys, after which every protected
    route sends the visitor back to the login page without touching the
    review table, and the login page renders on a GET. *)
Theorem logout_then_routes_redirect (sess : Session) (bot : Advisor.Bot)
    (recent : list Reviews.Review -> list Reviews.Review) (now : Z)
    (reviews : list Reviews.Review) (users : list Accounts.User)
    (is_post : bool) (form : Form) (model : option (Classifier Q)) :
  let s' := fst (logout sess) in
  s_username s' = None /\ s_chat s' = None /\
  Advisor.advisor bot s' is_post form = (s', Advisor.AdvRedirectLogin) /\
  predictor (is_logged_in s') is_post model form = RedirectLogin /\
  Reviews.home recent now reviews s' is_post form = (reviews, [], Reviews.HomeRedirectLogin) /\
  Accounts.login users s' false form = (users, s', [], Accounts.LoginRender).
Proof. repeat split. Qed.

(* ================================================================= *)
(** ** The users table *)













(** After logging out, a successful login starts the advisor with an
    empty conversation: the old history is not carried over. *)
Theorem logout_login_fresh_chat (db : list Accounts.User) (sess : Session) (form : Form)
    (db' : list Accounts.User) (s' : Session) (fl : list Flash)
    (bot : Advisor.Bot) (form2 : Form) :
  Accounts.login db (fst (logout sess)) true form = (db', s', fl, Accounts.LoginRedirectHome) ->
  is_logged_in s' = true /\ s_chat s' = None /\
  Advisor.advisor bot s' false form2 =
  (mkSession (s_username s') (Some []), Advisor.AdvRender (s_username s') []).
Proof.
  unfold Accounts.login. simpl is_logged_in. cbv zeta. simpl negb. cbv iota.
  destruct (_ || _)%bool; [discriminate|]. cbv iota.
  destruct (match form_get form "action" with Some a => String.eqb a "signup" | None => false end).
  - destruct (Accounts.find_user db _); [discriminate|].
    intros [= _ <- _]. repeat split.
  - destruct (match form_get form "action" with Some a => String.eqb a "login" | None => false end);
      [|discriminate].
    destruct (Accounts.find_user db _) as [u|]; [|discriminate].
    destruct (String.eqb _ _); [|discriminate].
    intros [= _ <- _]. repeat split.
Qed.

Lemma logout_login_fresh_chat_witness :
  Accounts.login [Accounts.mkUser "ann" "pw"]
    (fst (logout (mkSession (Some "ann") (Some [mkTurn "user" ["hi"]])))) true
    [("action", "login"); ("username", "ann"); ("password", "pw")] =
  ([Accounts.mkUser "ann" "pw"], mkSession (Some "ann") None, [], Accounts.LoginRedirectHome) /\
  is_logged_in (mkSession (Some "ann") None) = true /\ s_chat (mkSession (Some "ann") None) = None /\
  Advisor.advisor Advisor.fallback_bot (mkSession (Some "ann") None) false [] =
  (mkSession (Some "ann") (Some []), Advisor.AdvRender (Some "ann") []).
Proof.
  assert (H : Accounts.login [Accounts.mkUser "ann" "pw"]
                (fst (logout (mkSession (Some "ann") (Some [mkTurn "user" ["hi"]])))) true
                [("action", "login"); ("username", "ann"); ("password", "pw")] =
              ([Accounts.mkUser "ann" "pw"], mkSession (Some "ann") None, [],
               Accounts.LoginRedirectHome)) by reflexivity.
  split; [exact H|].
  exact (logout_login_fresh_chat _ _ _ _ _ _ Advisor.fallback_bot [] H).
Defined.

(* ================================================================= *)
(** ** The reviews table *)


(* ================================================================= *)
(** ** Lines of text: [splitlines], [strip] and the report *)

Definition first_char (s : string) : option ascii :=
  match s with String c _ => Some c | EmptyString => None end.

Fixpoint last_char (s : string) : option ascii :=
  match s with
  | EmptyString => None
  | String c s' => match last_char s' with Some d => Some d | None => Some c end
  end.

Fixpoint no_break (s : string) : bool :=
  match s with
  | EmptyString => true
  | String c s' => negb (Report.is_line_break c) && no_break s'
  end.

(** A line the report shows as it is: no line boundary inside, no
    whitespace at either end, not starting with a dash. *)
Definition good_line (l : string) : bool :=
  match first_char l, last_char l with
  | Some c, Some d =>
      negb (is_py_space c) && negb (Ascii.eqb c "-"%char) && negb (is_py_space d)
  | _, _ => false
  end && no_break l.

Definition blank_or_good (l : string) : bool := String.eqb l "" || good_line l.

(** A non-empty list of such lines and blank lines ending with a good one. *)
Fixpoint lines_ok (L : list string) : bool :=
  match L with
  | [] => false
  | l :: L' =>
      match L' with
      | [] => good_line l
      | _ :: _ => blank_or_good l && lines_ok L'
      end
  end.

Lemma sapp_cons (x : ascii) (a b : string) :
  String.append (String x a) b = String x (String.append a b).
Proof. reflexivity. Qed.

Lemma sapp_nil_l (b : string) : String.append "" b = b.
Proof. reflexivity. Qed.

Lemma sapp_assoc (a b c : string) :
  String.append (String.append a b) c = String.append a (String.append b c).
Proof. induction a as [|x a IH]; [done|]. by rewrite !sapp_cons, IH. Qed.

Lemma sapp_nil_r (a : string) : String.append a "" = a.
Proof. induction a as [|x a IH]; [done|]. by rewrite sapp_cons, IH. Qed.

Lemma last_char_app (a b : string) :
  last_char (String.append a b) =
  match last_char b with Some d => Some d | None => last_char a end.
Proof.
  induction a as [|x a IH]; rewrite ?sapp_nil_l, ?sapp_cons; simpl.
  - by destruct (last_char b).
  - rewrite IH. by destruct (last_char b), (last_char a).
Qed.

Lemma no_break_app (a b : string) :
  no_break (String.append a b) = (no_break a && no_break b)%bool.
Proof.
  induction a as [|x a IH]; rewrite ?sapp_nil_l, ?sapp_cons; simpl; [done|].
  by rewrite IH, andb_assoc.
Qed.

Lemma splitlines_aux_app (cur a rest : string) :
  no_break a = true ->
  Report.splitlines_aux cur (String.append a rest) =
  Report.splitlines_aux (String.append cur a) rest.
Proof.
  revert cur; induction a as [|x a IH]; intros cur Hb; rewrite ?sapp_nil_l, ?sapp_cons.
  - by rewrite sapp_nil_r.
  - simpl in Hb. apply andb_true_iff in Hb as [Hx Hb]. apply negb_true_iff in Hx.
    simpl. rewrite Hx, IH by done. by rewrite sapp_assoc, sapp_cons, sapp_nil_l.
Qed.

Lemma good_line_parts (l : string) :
  good_line l = true ->
  exists c d, first_char l = Some c /\ last_char l = Some d /\
    is_py_space c = false /\ Ascii.eqb c "-"%char = false /\ is_py_space d = false /\
    no_break l = true.
Proof.
  unfold good_line. destruct (first_char l) as [c|], (last_char l) as [d|]; simpl;
    try discriminate.
  intros H. apply andb_true_iff in H as [H Hb]. apply andb_true_iff in H as [H Hd].
  apply andb_true_iff in H as [Hc Hm]. apply negb_true_iff in Hc, Hm, Hd.
  by exists c, d.
Qed.

Definition NL : string := String "010"%char EmptyString.

Lemma last_char_cons_some (x : ascii) (s : string) : last_char (String x s) <> None.
Proof. simpl. by destruct (last_char s). Qed.

Lemma last_char_snoc (s : string) (d : ascii) :
  last_char s = Some d -> exists r, list_ascii_of_string s = app r [d].
Proof.
  induction s as [|x s IH]; simpl; [discriminate|].
  destruct (last_char s) as [d'|] eqn:E.
  - intros [= ->]. destruct (IH eq_refl) as [r Hr]. exists (x :: r). by rewrite Hr.
  - intros [= ->]. exists []. destruct s as [|y s]; [done|].
    exfalso. by apply (last_char_cons_some y s).
Qed.

Lemma str_strip_ends (s : string) (c d : ascii) :
  first_char s = Some c -> is_py_space c = false ->
  last_char s = Some d -> is_py_space d = false -> str_strip s = s.
Proof.
  intros Hf Hc Hl Hd. destruct (last_char_snoc s d Hl) as [r Hr].
  unfold str_strip, strip.
  assert (Hdrop : drop_spaces (list_ascii_of_string s) = list_ascii_of_string s).
  { destruct s as [|x s]; [discriminate|]. simpl in Hf |- *. injection Hf as ->.
    by rewrite Hc. }
  rewrite Hdrop, Hr, rev_app_distr. simpl. rewrite Hd. simpl.
  rewrite rev_involutive, <- Hr. apply string_of_list_ascii_of_string.
Qed.

Lemma str_strip_good (l : string) : good_line l = true -> str_strip l = l.
Proof.
  intros (c & d & Hf & Hl & Hc & _ & Hd & _)%good_line_parts.
  by apply (str_strip_ends l c d).
Qed.

Lemma lines_ok_forallb (L : list string) :
  lines_ok L = true -> forallb blank_or_good L = true.
Proof.
  induction L as [|l L IH]; simpl; [discriminate|].
  destruct L as [|l2 L].
  - intros H. unfold blank_or_good. by rewrite H, orb_true_r.
  - intros [H1 H2]%andb_true_iff. by rewrite H1, IH.
Qed.

Lemma blank_or_good_no_break (l : string) : blank_or_good l = true -> no_break l = true.
Proof.
  unfold blank_or_good. intros [H|H]%orb_true_iff.
  - by apply String.eqb_eq in H as ->.
  - by destruct (good_line_parts l H) as (? & ? & _ & _ & _ & _ & _ & ?).
Qed.

Lemma concat_cons2 (sep l l2 : string) (L : list string) :
  String.concat sep (l :: l2 :: L) = String.append l (String.append sep (String.concat sep (l2 :: L))).
Proof. reflexivity. Qed.

Lemma splitlines_aux_newline (cur r : string) :
  Report.splitlines_aux cur (String "010"%char r) = cur :: Report.splitlines_aux "" r.
Proof. by destruct r. Qed.

Lemma splitlines_concat (L : list string) :
  lines_ok L = true -> Report.splitlines (String.concat NL L) = L.
Proof.
  unfold Report.splitlines.
  induction L as [|l L IH]; [discriminate|]. destruct L as [|l2 L].
  - intros H. destruct (good_line_parts l H) as (c & d & Hf & _ & _ & _ & _ & Hb).
    simpl String.concat. rewrite <- (sapp_nil_r l) at 1.
    rewrite splitlines_aux_app by done. rewrite sapp_nil_l.
    destruct l; [discriminate|reflexivity].
  - intros H. simpl in H. apply andb_true_iff in H as [H1 H2].
    rewrite concat_cons2, splitlines_aux_app by (by apply blank_or_good_no_break).
    rewrite sapp_nil_l. unfold NL at 1. rewrite sapp_cons, sapp_nil_l.
    rewrite splitlines_aux_newline. f_equal. by apply IH.
Qed.

Lemma last_char_concat (L : list string) :
  lines_ok L = true ->
  exists d, last_char (String.concat NL L) = Some d /\ is_py_space d = false.
Proof.
  induction L as [|l L IH]; [discriminate|]. destruct L as [|l2 L].
  - intros H. destruct (good_line_parts l H) as (c & d & _ & Hl & _ & _ & Hd & _).
    by exists d.
  - intros H. simpl in H. apply andb_true_iff in H as [_ H2].
    destruct (IH H2) as (d & Hl & Hd). exists d.
    rewrite concat_cons2, !last_char_app, Hl. done.
Qed.

Lemma first_char_concat (sep l : string) (L : list string) :
  l <> "" -> first_char (String.concat sep (l :: L)) = first_char l.
Proof.
  intros Hl. destruct L as [|l2 L]; [done|].
  rewrite concat_cons2. destruct l as [|x l]; [done|]. by rewrite sapp_cons.
Qed.

Definition normal_paragraph (l : string) : Report.Flowable := Report.Paragraph l "Normal" None.

Lemma rec_loop_lines (L : list string) (acc : list Report.Flowable) :
  forallb blank_or_good L = true ->
  Report.rec_loop L acc =
  app acc (List.map normal_paragraph (List.filter (fun l => negb (String.eqb l "")) L)).
Proof.
  revert acc; induction L as [|l L IH]; intros acc H;
    cbn [Report.rec_loop List.filter]; [by rewrite app_nil_r|].
  simpl in H. apply andb_true_iff in H as [H1 H2].
  unfold blank_or_good in H1. apply orb_true_iff in H1 as [H1|H1].
  - apply String.eqb_eq in H1 as ->. simpl. by apply IH.
  - destruct (good_line_parts l H1) as (c & d & Hf & _ & _ & Hm & _ & _).
    rewrite (str_strip_good l H1).
    assert (Hne : String.eqb l "" = false) by (destruct l; [discriminate|reflexivity]).
    assert (Hs : starts_with "- " l = false).
    { destruct l as [|x l]; [discriminate|]. simpl in Hf. injection Hf as ->.
      change (starts_with "- " (String c l)) with (Ascii.eqb "-"%char c && starts_with " " l)%bool.
      rewrite Ascii.eqb_sym in Hm. by rewrite Hm. }
    rewrite Hne, Hs. simpl. rewrite IH by done. by rewrite <- app_assoc.
Qed.

Lemma rec_section_of_lines (L : list string) :
  lines_ok L = true -> match L with l :: _ => good_line l | [] => false end = true ->
  Report.rec_section (str_strip (String.concat NL L)) =
  List.map normal_paragraph (List.filter (fun l => negb (String.eqb l "")) L).
Proof.
  intros Hok Hhead. destruct L as [|l L']; [discriminate|].
  destruct (good_line_parts l Hhead) as (c & _ & Hf & _ & Hc & _ & _ & _).
  assert (Hl : l <> "") by (intros ->; discriminate).
  destruct (last_char_concat _ Hok) as (d & Hlast & Hd).
  pose proof (first_char_concat NL l L' Hl) as Hfc. rewrite Hf in Hfc.
  rewrite (str_strip_ends _ c d Hfc Hc Hlast Hd).
  destruct (String.concat NL (l :: L')) as [|x s] eqn:E; [discriminate|].
  unfold Report.rec_section. rewrite <- E, splitlines_concat by done.
  rewrite rec_loop_lines by (by apply lines_ok_forallb). done.
Qed.

Definition pack_lines (affected maintain : list Item) : list string :=
  match affected, maintain with
  | [], [] => [FALLBACK_LINE]
  | _, _ =>
      app (section "Affected Parameters:" affected)
        (app (match affected, maintain with _ :: _, _ :: _ => [""] | _, _ => [] end)
             (section "Parameters to Maintain:" maintain))
  end.

Lemma pack_concat (affected maintain : list Item) :
  pack affected maintain = String.concat NL (pack_lines affected maintain).
Proof.
  unfold pack, pack_lines, NL.
  destruct affected as [|a affected], maintain as [|m maintain];
    rewrite ?append_item_lines_eq; simpl; rewrite ?app_nil_r, <- ?app_assoc; reflexivity.
Qed.

Lemma first_char_app (a b : string) :
  a <> "" -> first_char (String.append a b) = first_char a.
Proof. destruct a as [|x a]; [done|]. by rewrite sapp_cons. Qed.

Lemma digit_char_not_break (k : Z) :
  0 <= k < 10 -> Report.is_line_break (ascii_of_nat (48 + Z.to_nat k)) = false.
Proof.
  intros Hk.
  assert (k = 0 \/ k = 1 \/ k = 2 \/ k = 3 \/ k = 4 \/ k = 5 \/ k = 6 \/ k = 7 \/
          k = 8 \/ k = 9) as Hd by lia.
  repeat destruct Hd as [-> | Hd]; [reflexivity ..|]. subst k. reflexivity.
Qed.

Lemma no_break_cons (c : ascii) (s : string) :
  no_break (String c s) = (negb (Report.is_line_break c) && no_break s)%bool.
Proof. reflexivity. Qed.

Lemma no_break_dec_digits (fuel : nat) (n : Z) (acc : string) :
  no_break acc = true -> no_break (dec_digits fuel n acc) = true.
Proof.
  revert n acc; induction fuel as [|fuel IH]; intros n acc Hacc; [exact Hacc|].
  cbn [dec_digits].
  assert (Hc : no_break (String (ascii_of_nat (48 + Z.to_nat (n mod 10))) acc) = true).
  { rewrite no_break_cons, digit_char_not_break, Hacc; [reflexivity|].
    apply Z.mod_pos_bound; lia. }
  destruct (Z.eqb (n / 10) 0); [exact Hc|]. by apply IH.
Qed.

Lemma no_break_str_int (v : Z) : no_break (str_int v) = true.
Proof.
  destruct v as [|p|p]; [reflexivity| |].
  - by apply no_break_dec_digits.
  - unfold str_int. rewrite no_break_cons. by apply no_break_dec_digits.
Qed.

(** Per feature: the humanized name starts with a visible character other
    than a dash, both tips end with a visible character, and none of the
    three texts contains a line boundary. *)
Definition feature_text_ok (f : string) : bool :=
  match first_char (humanize f), last_char (attention_tip f), last_char (maintain_tip f) with
  | Some c, Some d1, Some d2 =>
      negb (is_py_space c) && negb (Ascii.eqb c "-"%char) &&
      negb (is_py_space d1) && negb (is_py_space d2)
  | _, _, _ => false
  end && no_break (humanize f) && no_break (attention_tip f) && no_break (maintain_tip f).

Lemma features_text_ok : forallb feature_text_ok MODEL_FEATURE_ORDER = true.
Proof. vm_compute. reflexivity. Qed.

Lemma item_line_good (f : string) (v : Z) (t : string) :
  In f MODEL_FEATURE_ORDER -> t = attention_tip f \/ t = maintain_tip f ->
  good_line (item_line (mkItem f v t)) = true.
Proof.
  intros Hf Ht.
  pose proof (proj1 (forallb_forall _ _) features_text_ok f Hf) as Hok.
  unfold feature_text_ok in Hok.
  destruct (first_char (humanize f)) as [c|] eqn:Ec; [|discriminate].
  destruct (last_char (attention_tip f)) as [d1|] eqn:Ed1; [|discriminate].
  destruct (last_char (maintain_tip f)) as [d2|] eqn:Ed2; [|discriminate].
  apply andb_true_iff in Hok as [Hok Hm]. apply andb_true_iff in Hok as [Hok Ha].
  apply andb_true_iff in Hok as [Hok Hh].
  assert (Hlast : exists d, last_char t = Some d /\ is_py_space d = false /\ no_break t = true).
  { apply andb_true_iff in Hok as [Hok H2]. apply andb_true_iff in Hok as [Hok H1].
    apply negb_true_iff in H1, H2.
    destruct Ht as [->| ->]; [by exists d1|by exists d2]. }
  destruct Hlast as (d & Hd & Hds & Hbt).
  unfold good_line, item_line. cbn [factor value tip].
  rewrite first_char_app by (by destruct (humanize f)).
  rewrite !last_char_app, Hd, Ec. rewrite !no_break_app, Hh, Hbt, no_break_str_int.
  cbn [no_break]. rewrite !andb_true_r. rewrite !andb_true_iff in Hok. destruct_and!.
  by rewrite H, H3, Hds.
Qed.

Lemma lines_ok_app (xs ys : list string) :
  forallb blank_or_good xs = true -> lines_ok ys = true -> lines_ok (app xs ys) = true.
Proof.
  intros Hxs Hys. induction xs as [|x xs IH]; [done|].
  simpl in Hxs. apply andb_true_iff in Hxs as [Hx Hxs].
  rewrite <- app_comm_cons. specialize (IH Hxs).
  cbn [lines_ok]. destruct (app xs ys) as [|y zs]; [discriminate|].
  by rewrite Hx.
Qed.

Lemma lines_ok_all_good (L : list string) :
  L <> [] -> forallb good_line L = true -> lines_ok L = true.
Proof.
  induction L as [|l L IH]; [done|]. intros _ H. simpl in H.
  apply andb_true_iff in H as [Hl H]. cbn [lines_ok].
  destruct L as [|l2 L]; [done|].
  unfold blank_or_good. rewrite Hl, orb_true_r. by apply IH.
Qed.

Lemma forallb_good_blank (L : list string) :
  forallb good_line L = true -> forallb blank_or_good L = true.
Proof.
  induction L as [|l L IH]; [done|]. simpl. intros [Hl H]%andb_true_iff.
  rewrite IH by done. unfold blank_or_good at 1. by rewrite Hl, orb_true_r.
Qed.

Lemma filter_nonblank_good (L : list string) :
  forallb good_line L = true -> List.filter (fun l => negb (String.eqb l "")) L = L.
Proof.
  induction L as [|l L IH]; [done|]. simpl. intros [Hl H]%andb_true_iff.
  destruct (good_line_parts l Hl) as (c & _ & Hf & _).
  destruct l as [|x l]; [discriminate|]. simpl. by rewrite IH.
Qed.

Lemma section_good (header : string) (items : list Item) :
  good_line header = true -> forallb (fun it => good_line (item_line it)) items = true ->
  forallb good_line (section header items) = true.
Proof.
  intros Hh Hi.
  assert (Hmap : forall l, forallb (fun it => good_line (item_line it)) l = true ->
                           forallb good_line (List.map item_line l) = true).
  { induction l as [|x l IHl]; [done|]. simpl. intros [H1 H2]%andb_true_iff.
    by rewrite H1, IHl. }
  destruct items as [|it items]; [done|]. cbn [section forallb]. rewrite Hh.
  by apply Hmap.
Qed.

Lemma collected_items_good (form : Form) :
  let b := buckets (snd (collect form)) in
  forallb (fun it => good_line (item_line it)) (fst b) = true /\
  forallb (fun it => good_line (item_line it)) (snd b) = true.
Proof.
  intros b. split; apply forallb_forall; intros it Hit.
  - apply in_attention in Hit as (f & v & Hin & _ & ->).
    apply item_line_good; [|by left].
    rewrite <- (map_fst_collected form). apply in_map_iff. by exists (f, v).
  - apply in_maintain in Hit as (f & v & Hin & _ & ->).
    apply item_line_good; [|by right].
    rewrite <- (map_fst_collected form). apply in_map_iff. by exists (f, v).
Qed.

(** The PDF report shows the packed recommendations of a prediction line
    by line: each non-blank line becomes its own plain paragraph, the
    blank separator line disappears and no line is turned into a bullet
    (for any submitted form and any answers). *)
Theorem report_shows_packed_recommendations (form : Form) :
  let b := buckets (snd (collect form)) in
  Report.rec_section (str_strip (pack (fst b) (snd b))) =
  List.map (fun l => Report.Paragraph l "Normal" None)
    (match fst b, snd b with
     | [], [] => [FALLBACK_LINE]
     | _, _ => app (section "Affected Parameters:" (fst b))
                   (section "Parameters to Maintain:" (snd b))
     end).
Proof.
  intros b. destruct (collected_items_good form) as [Ha Hm]. fold b in Ha, Hm.
  destruct b as [a m]. cbn [fst snd] in *.
  assert (HA : good_line "Affected Parameters:" = true) by reflexivity.
  assert (HM : good_line "Parameters to Maintain:" = true) by reflexivity.
  pose proof (section_good _ _ HA Ha) as Sa. pose proof (section_good _ _ HM Hm) as Sm.
  rewrite pack_concat. unfold pack_lines.
  destruct a as [|ia a], m as [|im m].
  - rewrite rec_section_of_lines by reflexivity. reflexivity.
  - rewrite !app_nil_l. rewrite rec_section_of_lines.
    + by rewrite filter_nonblank_good.
    + by apply lines_ok_all_good.
    + exact HM.
  - rewrite !app_nil_l, app_nil_r. rewrite rec_section_of_lines.
    + by rewrite filter_nonblank_good.
    + by apply lines_ok_all_good.
    + exact HA.
  - rewrite rec_section_of_lines.
    + rewrite !List.filter_app, (filter_nonblank_good _ Sa), (filter_nonblank_good _ Sm).
      reflexivity.
    + rewrite app_assoc. apply lines_ok_app; [|by apply lines_ok_all_good].
      rewrite forallb_app, forallb_good_blank by done. reflexivity.
    + exact HA.
Qed.












(* ================================================================= *)
(** ** [str()] and [int()] *)













(* ================================================================= *)
(** ** The whole report and the advisor's history *)



(** The advisor never changes who is logged in and never drops or edits
    past turns: the stored history only grows, by nothing or by one
    "user" turn followed by one "model" turn. *)
Theorem advisor_history_append_only (bot : Advisor.Bot) (sess : Session)
    (is_post : bool) (form : Form) :
  let s' := fst (Advisor.advisor bot sess is_post form) in
  s_username s' = s_username sess /\
  (s_chat s' = s_chat sess \/
   exists ext, s_chat s' = Some (app (match s_chat sess with Some h => h | None => [] end) ext) /\
     (ext = [] \/ exists u m, ext = [mkTurn "user" [u]; mkTurn "model" [m]])).
Proof.
  unfold Advisor.advisor. destruct (is_logged_in sess); cbn [negb]; [|by split; [|left]].
  destruct sess as [user [h|]]; cbn [s_chat s_username].
  - destruct is_post; [destruct (str_strip _) as [|c rest]|]; cbn [fst s_chat s_username];
      (split; [done|]); try (by left).
    right. eexists. split; [by rewrite <- app_assoc|]. right. by eexists _, _.
  - destruct is_post; [destruct (str_strip _) as [|c rest]|]; cbn [fst s_chat s_username];
      (split; [done|]); right.
    + exists []. by split; [|left].
    + eexists. split; [by rewrite <- app_assoc|]. right. by eexists _, _.
    + exists []. by split; [|left].
Qed.
